(** * trekhleb.github.io: content model and presentational components

    A shallow embedding of the typed content records ([Project],
    [Publication], [Profile]), of the two [profile] registries and of the
    components [ProjectPreview] and [Greeting], followed by the properties
    of the rendering contract.

    A component is a JavaScript function.  Two things it could do besides
    returning a tree are kept visible in the embedding: it could throw (a
    property read on [null] is a [TypeError]) and it could touch state that
    outlives the call.  Components therefore live in the monad [Render],
    which threads a store and an abrupt completion. *)

From stdpp Require Import base strings list gmap.

Open Scope string_scope.

(** ** JavaScript completions and the render monad *)

Inductive JSError : Type :=
  | TypeError (message : string).

Inductive completion (A : Type) : Type :=
  | Normal (value : A)
  | Throw (error : JSError).
Arguments Normal {A} value.
Arguments Throw {A} error.

(** The state a render could reach outside its own locals: named cells
    (module-level bindings, hook slots). *)
Definition Store : Type := gmap string string.

Definition Render (A : Type) : Type := Store → completion A * Store.

Definition run {A} (m : Render A) (σ : Store) : completion A * Store := m σ.

#[global] Instance Render_ret : MRet Render :=
  λ A (a : A) σ, (Normal a, σ).

#[global] Instance Render_bind : MBind Render :=
  λ A B (k : A → Render B) (m : Render A) σ,
    match m σ with
    | (Normal a, σ') => k a σ'
    | (Throw e, σ') => (Throw e, σ')
    end.

Definition throw {A} (e : JSError) : Render A := λ σ, (Throw e, σ).

(** ** Truthiness

    [ToBoolean] of the language: [undefined], [null] and the empty string
    are falsy; every object is truthy, and an array is an object, the empty
    array included. *)

Class ToBoolean (A : Type) := to_boolean : A → bool.

#[global] Instance string_to_boolean : ToBoolean string :=
  λ s, bool_decide (s ≠ "").

#[global] Instance array_to_boolean {A} : ToBoolean (list A) :=
  λ _, true.

(** [None] stands for an absent value ([undefined] or [null]). *)
#[global] Instance nullable_to_boolean {A} `{ToBoolean A} : ToBoolean (option A) :=
  λ o, match o with Some a => to_boolean a | None => false end.

(** [o.f]: reading a property of an absent value throws. *)
Definition prop {O A} (f : O → A) (o : option O) : Render A :=
  match o with
  | Some x => mret (f x)
  | None => throw (TypeError "Cannot read properties of null")
  end.

(** [o?.f]: optional chaining short-circuits to [undefined]. *)
Definition optional_prop {O A} (f : O → option A) (o : option O) : option A :=
  match o with
  | Some x => f x
  | None => None
  end.

(** [a.map(callback)], the callback taking the element and its index. *)
Definition array_map {A B} (callback : A → nat → B) (a : option (list A))
  : Render (list B) :=
  xs ← prop id a;
  mret (imap (λ index x, callback x index) xs).

(** ** Primitive value types *)

(** Modelled from the spec: the declarations of [Tag], [Link], [DateString]
    and [Image] (types/Tag, types/Link, types/Date, types/Image) are missing;
    the fields are those of the data-model table, the field names of [Image]
    those the [profile] registries use, [url] the one [Greeting] uses. *)
Record Tag : Type := { tag_name : string }.

Record Link : Type := { url : string; label : option string }.

Definition DateString : Type := string.

Record Image : Type := { srcPath : string; caption : option string }.

#[global] Instance Image_to_boolean : ToBoolean Image := λ _, true.

(** ** Entity types *)

Module Project.
(** Modelled from the spec: the declaration of [Project] (types/Project) is
    missing; the fields are those of the data-model table.  [summary] and
    its lines are nullable, as the guard on [project.summary] and the
    callback's parameter type [string | null] in [ProjectPreview] have
    them. *)
Record t : Type := {
  name : string;
  summary : option (list (option string));
  cover : option Image;
  tags : option (list Tag);
  startDate : DateString;
  endDate : option DateString;
}.
End Project.

#[global] Instance Project_to_boolean : ToBoolean Project.t := λ _, true.

(** types/Publication.ts *)

Inductive Publisher : Type :=
  | AITimeJournal
  | CodeProject
  | DOU
  | DataDrivenInvestor
  | GeeksForGeeks
  | HackerNews
  | HackerNoon
  | HowIGotJob
  | ITNEXT
  | JavaScriptInPlainEnglish
  | KDnuggets
  | Newline
  | TechCrunch
  | TowardsDataScience.

(** The string each member of the enum stands for at run time. *)
Definition Publisher_value (p : Publisher) : string :=
  match p with
  | AITimeJournal => "AI Time Journal"
  | CodeProject => "CodeProject"
  | DOU => "DOU"
  | DataDrivenInvestor => "Data Driven Investor"
  | GeeksForGeeks => "GeeksForGeeks"
  | HackerNews => "Hacker News"
  | HackerNoon => "HackerNoon"
  | HowIGotJob => "HowIGotJob"
  | ITNEXT => "ITNEXT"
  | JavaScriptInPlainEnglish => "JavaScript in Plain English"
  | KDnuggets => "KDnuggets"
  | Newline => "Newline"
  | TechCrunch => "TechCrunch"
  | TowardsDataScience => "Towards Data Science"
  end.

#[global] Instance Publisher_eq_dec : EqDecision Publisher.
Proof. solve_decision. Defined.

Module Publication.
Record t : Type := {
  title : string;
  summary : list string;
  link : Link;
  date : DateString;
  publisher : Publisher;
  tags : option (list Tag);
}.
End Publication.

(** A field of an object literal: left out, set to [null], or set to a
    value. *)
Inductive Field (A : Type) : Type :=
  | Omitted
  | Null
  | Value (a : A).
Arguments Omitted {A}.
Arguments Null {A}.
Arguments Value {A} a.

Module Location.
Record t : Type := { name : string }.
End Location.

Module Profile.
(** Modelled from the spec: the declaration of [Profile] (types/Profile) is
    missing; the fields are those of the data-model table, [firstName]
    required and every other field optional; [location] holds a name, as
    the registry has it. *)
Record t : Type := {
  firstName : string;
  lastName : Field string;
  position : Field string;
  summary : Field (list string);
  avatar : Field Image;
  location : Field Location.t;
  tags : Field (list Tag);
  socialLinks : Field (list Link);
}.
End Profile.

(** ** Content registries

    Two files declare a [profile]; their names are not known, so each is a
    module named after its place in the sources.  The shared [socialLinks]
    list (data/socialLinks) is missing and is a parameter of the file that
    uses it. *)

Module part_000.
Definition profile (socialLinks : list Link) : Profile.t :=
  {| Profile.firstName := "Oleksii";
     Profile.lastName := Value "Trekhleb";
     Profile.position := Value "Senior Software Engineer @ Uber";
     Profile.summary := Value
       ["Author of 180k ★️ js-algorithms GitHub repo";
        "8+ times on HackerNews homepage";
        "15+ years of full-stack experience"];
     Profile.avatar := Value
       {| srcPath := "profile/avatar_500x500_v2.jpg";
          caption := Some "Oleksii Trekhleb" |};
     Profile.location := Value
       {| Location.name := "Amsterdam, The Netherlands • (from Ukraine)" |};
     Profile.tags := Value [];
     Profile.socialLinks := Value socialLinks |}.
End part_000.

Module part_001.
Definition profile : Profile.t :=
  {| Profile.firstName := "AI时代的程序员";
     Profile.lastName := Omitted;
     Profile.position := Value "";
     Profile.summary := Value ["专注于AI赋能和程序员事业发展领域的分享"];
     Profile.avatar := Value
       {| srcPath := "profile/avatar_500x500.png";
          caption := Some "AI时代的程序员" |};
     Profile.location := Omitted;
     Profile.tags := Value [];
     Profile.socialLinks := Omitted |}.
End part_001.

Definition profiles (socialLinks : list Link) : list Profile.t :=
  [part_000.profile socialLinks; part_001.profile].

(** ** React element trees *)

Inductive Component : Type :=
  | CardTitle | Tags | DateRange | Card | CardMedia | CardContent
  | FluidImage | HyperLink.

(** The type of an element: a host tag ([<div>], [<p>]) or a component. *)
Inductive ElementType : Type :=
  | Host (tag : string)
  | Comp (c : Component).

Inductive PropValue : Type :=
  | PUndefined
  | PString (s : string)
  | PTags (ts : list Tag)
  | PImage (i : Image)
  | PLink (l : Link).

#[warnings="-register-all"]
Inductive ReactNode : Type :=
  | RNull
  | RText (s : string)
  | RArray (items : list ReactNode)
  | RElement (type : ElementType) (key : option nat)
             (props : list (string * PropValue)) (children : list ReactNode).

#[global] Instance Component_eq_dec : EqDecision Component.
Proof. solve_decision. Defined.

#[global] Instance ElementType_eq_dec : EqDecision ElementType.
Proof. solve_decision. Defined.

Definition jsx (type : ElementType) (props : list (string * PropValue))
  (children : list ReactNode) : ReactNode :=
  RElement type None props children.

Definition text_child (s : option string) : ReactNode :=
  match s with Some s => RText s | None => RNull end.

Definition date_prop (d : option DateString) : PropValue :=
  match d with Some d => PString d | None => PUndefined end.

Definition tags_prop (ts : option (list Tag)) : PropValue :=
  match ts with Some ts => PTags ts | None => PUndefined end.

Definition image_prop (i : option Image) : PropValue :=
  match i with Some i => PImage i | None => PUndefined end.

(** An array of nodes (or [null]) placed between an element's tags. *)
Definition array_child (a : option (list ReactNode)) : ReactNode :=
  match a with Some items => RArray items | None => RNull end.

(** ** components/elements/ProjectPreview.tsx *)

Record ProjectPreviewProps : Type := { project : option Project.t }.

Definition projectName (project : option Project.t) : Render ReactNode :=
  name ← prop Project.name project;
  mret (jsx (Comp CardTitle) [] [RText name]).

Definition projectTags (project : option Project.t) : Render ReactNode :=
  if to_boolean (optional_prop Project.tags project) then
    tags ← prop Project.tags project;
    mret (jsx (Host "div") []
            [jsx (Comp Tags) [("tags", tags_prop tags)] []])
  else mret RNull.

Definition projectDates (project : option Project.t) : Render ReactNode :=
  startDate ← prop Project.startDate project;
  endDate ← prop Project.endDate project;
  mret (jsx (Host "div") [("className", PString "mb-3")]
          [jsx (Comp DateRange)
             [("startDate", PString startDate);
              ("endDate", date_prop endDate);
              ("className", PString "text-sm text-gray-600 font-light")]
             []]).

Definition summaryLineElement (summaryLine : option string) (index : nat)
  : ReactNode :=
  RElement (Host "p") (Some index) [] [text_child summaryLine].

Definition projectSummaryLines (project : option Project.t)
  : Render (option (list ReactNode)) :=
  summary ← prop Project.summary project;
  if to_boolean summary then
    lines ← array_map summaryLineElement summary;
    mret (Some lines)
  else mret None.

Definition projectSummary (projectSummaryLines : option (list ReactNode))
  : ReactNode :=
  if to_boolean projectSummaryLines then
    jsx (Host "div") [("className", PString "mb-3 font-light")]
      [array_child projectSummaryLines]
  else RNull.

Definition projectCover (project : option Project.t) : Render ReactNode :=
  cover ← prop Project.cover project;
  if to_boolean cover then
    image ← prop Project.cover project;
    mret (jsx (Comp FluidImage) [("image", image_prop image)] [])
  else mret RNull.

Definition ProjectPreview (props : ProjectPreviewProps) : Render ReactNode :=
  let project := props.(project) in
  if negb (to_boolean project) then mret RNull
  else
    projectName ← projectName project;
    projectTags ← projectTags project;
    projectDates ← projectDates project;
    projectSummaryLines ← projectSummaryLines project;
    let projectSummary := projectSummary projectSummaryLines in
    projectCover ← projectCover project;
    mret (jsx (Comp Card) []
            [jsx (Comp CardMedia) [] [projectCover];
             jsx (Comp CardContent) []
               [projectName; projectSummary; projectTags; projectDates]]).

(** ** The [Greeting] component (it follows types/Publication.ts in the
    sources) *)

(** Modelled from the spec: the route registry (constants/routes) is
    missing, the "external route-registry collaborator" of the spec; of it
    only the two paths that [Greeting] reads are kept. *)
Record Route : Type := { path : string }.

Record Routes : Type := { projects : Route; blog : Route }.

Definition Greeting (routes : Routes) : Render ReactNode :=
  let projectsLink : Link :=
    {| url := path (projects routes) ++ "/"; label := None |} in
  let blogLink : Link :=
    {| url := path (blog routes) ++ "/"; label := None |} in
  let projectsLinkElement :=
    jsx (Host "span") [("className", PString "inline-block")]
      [jsx (Comp HyperLink)
         [("link", PLink projectsLink);
          ("className", PString "underline underline-offset-2")]
         [RText "projects"]] in
  let blogLinkElement :=
    jsx (Host "span") [("className", PString "inline-block")]
      [jsx (Comp HyperLink)
         [("link", PLink blogLink);
          ("className", PString "underline underline-offset-2")]
         [RText "articles"]] in
  mret (jsx (Host "p") [("className", PString "font-light")]
          [RText ("大模型的出现让我们进入了AI时代，也给程序员这一职业带来了新的机遇和挑战。"
                  ++ " "
                  ++ "本网站聚焦于AI赋能，跟大家探讨AI时代的程序员们该如抓住这一历史机遇，在这一轮的技术革命中找到自己的位置，实现更好的发展。")]).

(** ** Reading a rendered tree *)

(** Number of elements of type [t] anywhere in a tree. *)
Fixpoint count_type (t : ElementType) (n : ReactNode) : nat :=
  let count_all :=
    fix count_all (ns : list ReactNode) : nat :=
      match ns with
      | [] => 0
      | n :: ns => count_type t n + count_all ns
      end in
  match n with
  | RNull | RText _ => 0
  | RArray items => count_all items
  | RElement type _ _ children =>
      (if decide (type = t) then 1 else 0) + count_all children
  end.

Definition count_types (t : ElementType) (ns : list ReactNode) : nat :=
  foldr (λ n acc, count_type t n + acc) 0 ns.

Definition is_element_of (t : ElementType) (n : ReactNode) : bool :=
  match n with
  | RElement type _ _ _ => bool_decide (type = t)
  | _ => false
  end.

Definition element_children (n : ReactNode) : list ReactNode :=
  match n with
  | RElement _ _ _ children => children
  | _ => []
  end.

(** The two slots of a card: what [CardMedia] and [CardContent] enclose. *)
Definition slot (c : Component) (card : ReactNode) : list ReactNode :=
  if is_element_of (Comp Card) card then
    match List.filter (is_element_of (Comp c)) (element_children card) with
    | [s] => element_children s
    | _ => []
    end
  else [].

Definition media_slot : ReactNode → list ReactNode := slot CardMedia.
Definition content_slot : ReactNode → list ReactNode := slot CardContent.

(** What React leaves out of the page: [null] children render nothing. *)
Definition is_null (n : ReactNode) : bool :=
  match n with RNull => true | _ => false end.

Definition rendered (ns : list ReactNode) : list ReactNode :=
  List.filter (λ n, negb (is_null n)) ns.

(** The sections of a project card, told apart by what they enclose. *)
Definition is_title_section (n : ReactNode) : bool :=
  is_element_of (Comp CardTitle) n.

Definition is_tags_section (n : ReactNode) : bool :=
  is_element_of (Host "div") n
  && existsb (is_element_of (Comp Tags)) (element_children n).

Definition is_dates_section (n : ReactNode) : bool :=
  is_element_of (Host "div") n
  && existsb (is_element_of (Comp DateRange)) (element_children n).

Definition is_summary_section (n : ReactNode) : bool :=
  is_element_of (Host "div") n
  && match element_children n with
     | [RArray lines] => forallb (is_element_of (Host "p")) lines
     | _ => false
     end.

Definition has_section (is_section : ReactNode → bool) (card : ReactNode) : bool :=
  existsb is_section (content_slot card).

(** The text a paragraph shows ([None] for a [null] line). *)
Definition paragraph_text (n : ReactNode) : option string :=
  match element_children n with
  | [RText s] => Some s
  | _ => None
  end.

Definition element_key (n : ReactNode) : option nat :=
  match n with
  | RElement _ key _ _ => key
  | _ => None
  end.

(** ** The trees the component builds, written out *)

Definition title_section (name : string) : ReactNode :=
  RElement (Comp CardTitle) None [] [RText name].

Definition tags_section (ts : list Tag) : ReactNode :=
  RElement (Host "div") None []
    [RElement (Comp Tags) None [("tags", PTags ts)] []].

Definition dates_section (startDate : DateString) (endDate : option DateString)
  : ReactNode :=
  RElement (Host "div") None [("className", PString "mb-3")]
    [RElement (Comp DateRange) None
       [("startDate", PString startDate);
        ("endDate", date_prop endDate);
        ("className", PString "text-sm text-gray-600 font-light")] []].

Definition paragraphs (lines : list (option string)) : list ReactNode :=
  imap (λ index line, RElement (Host "p") (Some index) [] [text_child line]) lines.

Definition summary_section (lines : list (option string)) : ReactNode :=
  RElement (Host "div") None [("className", PString "mb-3 font-light")]
    [RArray (paragraphs lines)].

Definition cover_image (image : Image) : ReactNode :=
  RElement (Comp FluidImage) None [("image", PImage image)] [].

Definition optional_section {A} (section : A → ReactNode) (field : option A)
  : ReactNode :=
  match field with Some a => section a | None => RNull end.

Definition project_card (p : Project.t) : ReactNode :=
  RElement (Comp Card) None []
    [RElement (Comp CardMedia) None []
       [optional_section cover_image (Project.cover p)];
     RElement (Comp CardContent) None []
       [title_section (Project.name p);
        optional_section summary_section (Project.summary p);
        optional_section tags_section (Project.tags p);
        dates_section (Project.startDate p) (Project.endDate p)]].

(** ** The omission contract of the registries *)

(** The empty value of a type, the one that could stand for "nothing
    here": the empty string, the empty list, a record whose text is
    empty. *)
Class Blank (A : Type) := blank : A → bool.

#[global] Instance string_blank : Blank string :=
  λ s, bool_decide (s = "").

#[global] Instance list_blank {A} : Blank (list A) :=
  λ l, match l with [] => true | _ :: _ => false end.

#[global] Instance Image_blank : Blank Image :=
  λ i, blank (srcPath i).

#[global] Instance Location_blank : Blank Location.t :=
  λ l, blank (Location.name l).

(** An optional field kept to the contract: left out, or set to a value
    that is not blank; never [null]. *)
Definition omitted_or_populated {A} `{Blank A} (f : Field A) : bool :=
  match f with
  | Omitted => true
  | Null => false
  | Value a => negb (blank a)
  end.

(** A field that is set to a value, blank or not. *)
Definition is_set {A} (f : Field A) : bool :=
  match f with Value _ => true | _ => false end.

(** A field set to a value that is not blank. *)
Definition populated {A} `{Blank A} (f : Field A) : bool :=
  match f with
  | Value a => negb (blank a)
  | Omitted | Null => false
  end.

(** The contract as the specification words it, over every field. *)
Definition keeps_omission_contract (p : Profile.t) : bool :=
  negb (blank (Profile.firstName p))
  && omitted_or_populated (Profile.lastName p)
  && omitted_or_populated (Profile.position p)
  && omitted_or_populated (Profile.summary p)
  && omitted_or_populated (Profile.avatar p)
  && omitted_or_populated (Profile.location p)
  && omitted_or_populated (Profile.tags p)
  && omitted_or_populated (Profile.socialLinks p).

(** What the registries do: [firstName], [summary] (every line of it) and
    [avatar] are populated; [lastName] and [location] are populated or left
    out; [position] and [tags] are always set and may be blank;
    [socialLinks] is left out or set to the shared list. *)
Definition keeps_registry_practice (socialLinks : list Link) (p : Profile.t)
  : Prop :=
  blank (Profile.firstName p) = false
  ∧ omitted_or_populated (Profile.lastName p) = true
  ∧ is_set (Profile.position p) = true
  ∧ populated (Profile.summary p) = true
  ∧ (∀ lines, Profile.summary p = Value lines →
              Forall (λ line, blank line = false) lines)
  ∧ populated (Profile.avatar p) = true
  ∧ omitted_or_populated (Profile.location p) = true
  ∧ is_set (Profile.tags p) = true
  ∧ (Profile.socialLinks p = Omitted
     ∨ Profile.socialLinks p = Value socialLinks).

Definition Publisher_members : list Publisher :=
  [AITimeJournal; CodeProject; DOU; DataDrivenInvestor; GeeksForGeeks;
   HackerNews; HackerNoon; HowIGotJob; ITNEXT; JavaScriptInPlainEnglish;
   KDnuggets; Newline; TechCrunch; TowardsDataScience].

Definition greeting_paragraph : ReactNode :=
  RElement (Host "p") None [("className", PString "font-light")]
    [RText "大模型的出现让我们进入了AI时代，也给程序员这一职业带来了新的机遇和挑战。 本网站聚焦于AI赋能，跟大家探讨AI时代的程序员们该如抓住这一历史机遇，在这一轮的技术革命中找到自己的位置，实现更好的发展。"].

(** ** Sample projects *)

Definition demo : Project.t :=
  {| Project.name := "Demo";
     Project.summary := Some [Some "One line."];
     Project.cover := None;
     Project.tags := None;
     Project.startDate := "2023-01-01";
     Project.endDate := None |}.

Definition demo_with_empty_tags : Project.t :=
  {| Project.name := "Demo";
     Project.summary := Some [Some "One line."];
     Project.cover := None;
     Project.tags := Some [];
     Project.startDate := "2023-01-01";
     Project.endDate := None |}.

Definition demo_with_empty_summary : Project.t :=
  {| Project.name := "Demo";
     Project.summary := Some [];
     Project.cover := None;
     Project.tags := None;
     Project.startDate := "2023-01-01";
     Project.endDate := None |}.

(** * Properties *)

(** ** What a render of [ProjectPreview] returns *)

Lemma ProjectPreview_present (p : Project.t) (σ : Store) :
  run (ProjectPreview {| project := Some p |}) σ = (Normal (project_card p), σ).
Proof.
  destruct p as [name summary cover tags startDate endDate].
  destruct summary, cover, tags; reflexivity.
Qed.

Lemma ProjectPreview_absent (σ : Store) :
  run (ProjectPreview {| project := None |}) σ = (Normal RNull, σ).
Proof. reflexivity. Qed.

(** ** Counting inside the summary paragraphs *)

Lemma count_type_element t type key props children :
  count_type t (RElement type key props children)
  = (if decide (type = t) then 1 else 0) + count_types t children.
Proof. reflexivity. Qed.

Lemma count_type_array t items :
  count_type t (RArray items) = count_types t items.
Proof. reflexivity. Qed.

Lemma count_types_keyed_paragraphs t (k : nat → nat) (lines : list (option string)) :
  t ≠ Host "p" →
  count_types t
    (imap (λ index line,
       RElement (Host "p") (Some (k index)) [] [text_child line]) lines) = 0.
Proof.
  intros Ht. revert k.
  induction lines as [|line lines IH]; intros k; [done|].
  pose proof (IH (k ∘ S)) as Htail.
  change (count_type t (RElement (Host "p") (Some (k 0)) [] [text_child line])
          + count_types t
              (imap (λ index line,
                 RElement (Host "p") (Some ((k ∘ S) index)) []
                   [text_child line]) lines) = 0).
  rewrite Htail, count_type_element, decide_False by congruence.
  by destruct line.
Qed.

Lemma count_types_paragraphs t (lines : list (option string)) :
  t ≠ Host "p" → count_types t (paragraphs lines) = 0.
Proof. apply (count_types_keyed_paragraphs t id). Qed.

Lemma count_type_summary_section t lines :
  t ≠ Host "p" → t ≠ Host "div" → count_type t (summary_section lines) = 0.
Proof.
  intros Hp Hdiv. unfold summary_section.
  rewrite count_type_element, decide_False by congruence.
  cbn [count_types foldr]. rewrite count_type_array.
  by rewrite count_types_paragraphs.
Qed.

Lemma count_type_project_card (c : Component) (p : Project.t) :
  count_type (Comp c) (project_card p)
  = (if decide (c = Card) then 1 else 0)
    + (if decide (c = CardMedia) then 1 else 0)
    + (if decide (c = CardContent) then 1 else 0)
    + (if decide (c = CardTitle) then 1 else 0)
    + (if decide (c = DateRange) then 1 else 0)
    + (if decide (c = Tags)
       then match Project.tags p with Some _ => 1 | None => 0 end else 0)
    + (if decide (c = FluidImage)
       then match Project.cover p with Some _ => 1 | None => 0 end else 0).
Proof.
  destruct p as [name summary cover tags startDate endDate].
  unfold project_card. cbn [Project.name Project.summary Project.cover
    Project.tags Project.startDate Project.endDate].
  repeat (rewrite count_type_element; cbn [count_types foldr]).
  assert (count_type (Comp c) (optional_section summary_section summary) = 0)
    as ->.
  { destruct summary; [|done]. by apply count_type_summary_section. }
  destruct cover, tags, c; reflexivity.
Qed.

Lemma content_slot_project_card (p : Project.t) :
  content_slot (project_card p)
  = [title_section (Project.name p);
     optional_section summary_section (Project.summary p);
     optional_section tags_section (Project.tags p);
     dates_section (Project.startDate p) (Project.endDate p)].
Proof. reflexivity. Qed.

Lemma media_slot_project_card (p : Project.t) :
  media_slot (project_card p) = [optional_section cover_image (Project.cover p)].
Proof. reflexivity. Qed.

Lemma is_summary_section_paragraphs (lines : list (option string)) :
  is_summary_section (summary_section lines) = true.
Proof.
  unfold is_summary_section, summary_section, paragraphs. simpl.
  apply forallb_forall. intros n Hn%list_elem_of_In.
  apply elem_of_lookup_imap in Hn as (i & line & -> & _). done.
Qed.

(** ** The absent project *)

(** C1: for a null project the component returns [null]: a normal
    completion (no error) whose value is the empty render, with no element
    in it, whatever the store. *)
Theorem ProjectPreview_null_project (σ : Store) :
  run (ProjectPreview {| project := None |}) σ = (Normal RNull, σ)
  ∧ ∀ t, count_type t RNull = 0.
Proof. split; [apply ProjectPreview_absent | done]. Qed.

(** ** Optional sections *)

(** The scenario of the specification: title, one summary line, no tags
    section, a date range with no end date. *)
Example demo_card (σ : Store) :
  run (ProjectPreview {| project := Some demo |}) σ
  = (Normal
       (RElement (Comp Card) None []
          [RElement (Comp CardMedia) None [] [RNull];
           RElement (Comp CardContent) None []
             [RElement (Comp CardTitle) None [] [RText "Demo"];
              RElement (Host "div") None
                [("className", PString "mb-3 font-light")]
                [RArray [RElement (Host "p") (Some 0) [] [RText "One line."]]];
              RNull;
              RElement (Host "div") None [("className", PString "mb-3")]
                [RElement (Comp DateRange) None
                   [("startDate", PString "2023-01-01");
                    ("endDate", PUndefined);
                    ("className", PString "text-sm text-gray-600 font-light")]
                   []]]]), σ).
Proof. reflexivity. Qed.

(** C2, as stated, fails: a project whose [tags] is the empty list is
    rendered with a tags section, the wrapper [<div>] around a [Tags]
    element given the empty list. *)
Lemma tags_section_for_empty_tags :
  ¬ (∀ (p : Project.t) (σ : Store) (out : ReactNode),
       run (ProjectPreview {| project := Some p |}) σ = (Normal out, σ) →
       (has_section is_tags_section out = true
        ↔ ∃ t ts, Project.tags p = Some (t :: ts))).
Proof.
  intros claim.
  destruct (claim demo_with_empty_tags ∅ (project_card demo_with_empty_tags))
    as [Hsection _]; [apply ProjectPreview_present|].
  destruct Hsection as (t & ts & Htags); [reflexivity | discriminate].
Qed.

(** C2, amended: the output has a tags section if and only if [tags] is
    present, whether or not the list is empty; when present the section is
    the third child of the content slot and wraps one [Tags] element given
    the list, and when absent no [Tags] element occurs anywhere. *)
Theorem tags_section_iff_present (p : Project.t) (σ : Store) :
  ∃ out,
    run (ProjectPreview {| project := Some p |}) σ = (Normal out, σ)
    ∧ (has_section is_tags_section out = true ↔ is_Some (Project.tags p))
    ∧ (∀ ts, Project.tags p = Some ts →
             content_slot out !! 2 = Some (tags_section ts)
             ∧ count_type (Comp Tags) out = 1)
    ∧ (Project.tags p = None → count_type (Comp Tags) out = 0).
Proof.
  exists (project_card p). split; [apply ProjectPreview_present|].
  split; [|split].
  - unfold has_section. rewrite content_slot_project_card.
    destruct p as [name [lines|] cover [ts|] startDate endDate];
      rewrite is_Some_alt; done.
  - intros ts Hts. rewrite content_slot_project_card, count_type_project_card.
    rewrite Hts. done.
  - intros Hts. rewrite count_type_project_card, Hts. done.
Qed.

(** C3, as stated, fails: a project whose [summary] is the empty list is
    rendered with a summary section, a [<div>] holding no paragraph. *)
Lemma summary_section_for_empty_summary :
  ¬ (∀ (p : Project.t) (σ : Store) (out : ReactNode),
       run (ProjectPreview {| project := Some p |}) σ = (Normal out, σ) →
       (has_section is_summary_section out = true
        ↔ ∃ line lines, Project.summary p = Some (line :: lines))).
Proof.
  intros claim.
  destruct (claim demo_with_empty_summary ∅
              (project_card demo_with_empty_summary))
    as [Hsection _]; [apply ProjectPreview_present|].
  destruct Hsection as (line & lines & Hsummary); [reflexivity | discriminate].
Qed.

(** C3, amended: the output has a summary section if and only if [summary]
    is present, whether or not the list is empty; when present the section
    is the second child of the content slot and holds one paragraph per
    line (none for the empty list). *)
Theorem summary_section_iff_present (p : Project.t) (σ : Store) :
  ∃ out,
    run (ProjectPreview {| project := Some p |}) σ = (Normal out, σ)
    ∧ (has_section is_summary_section out = true
       ↔ is_Some (Project.summary p))
    ∧ (∀ lines, Project.summary p = Some lines →
         content_slot out !! 1 = Some (summary_section lines)
         ∧ length (paragraphs lines) = length lines).
Proof.
  exists (project_card p). split; [apply ProjectPreview_present|]. split.
  - unfold has_section. rewrite content_slot_project_card.
    destruct p as [name [lines|] cover [ts|] startDate endDate];
      cbn [Project.name Project.summary Project.tags Project.startDate
           Project.endDate optional_section existsb]; rewrite ?is_Some_alt.
    1,2: by rewrite is_summary_section_paragraphs.
    all: done.
  - intros lines Hlines. rewrite content_slot_project_card, Hlines.
    split; [done|]. apply length_imap.
Qed.

(** ** Title and dates *)

(** C4: whatever optional fields are absent, the output has exactly one
    [CardTitle] element in the whole tree, the first child of the content
    slot, showing [project.name]; and exactly one [DateRange] element, in
    the section that closes the content slot, given [startDate] as it is
    and [endDate] as it is when present, [undefined] when absent. *)
Theorem one_title_and_a_date_range (p : Project.t) (σ : Store) :
  ∃ out,
    run (ProjectPreview {| project := Some p |}) σ = (Normal out, σ)
    ∧ count_type (Comp CardTitle) out = 1
    ∧ List.filter is_title_section (content_slot out)
      = [title_section (Project.name p)]
    ∧ element_children (title_section (Project.name p))
      = [RText (Project.name p)]
    ∧ count_type (Comp DateRange) out = 1
    ∧ List.filter is_dates_section (content_slot out)
      = [dates_section (Project.startDate p) (Project.endDate p)]
    ∧ List.filter is_title_section (content_slot out)
      = [RElement (Comp CardTitle) None [] [RText (Project.name p)]]
    ∧ List.filter is_dates_section (content_slot out)
      = [RElement (Host "div") None [("className", PString "mb-3")]
           [RElement (Comp DateRange) None
              [("startDate", PString (Project.startDate p));
               ("endDate",
                match Project.endDate p with
                | Some endDate => PString endDate
                | None => PUndefined
                end);
               ("className", PString "text-sm text-gray-600 font-light")]
              []]].
Proof.
  exists (project_card p). split; [apply ProjectPreview_present|].
  rewrite !count_type_project_card, content_slot_project_card.
  repeat split; try done.
  all: destruct p as [name [lines|] cover [ts|] startDate [endDate|]]; done.
Qed.

(** ** Order *)

Lemma projectSummaryLines_present (p : Project.t) lines (σ : Store) :
  Project.summary p = Some lines →
  run (projectSummaryLines (Some p)) σ = (Normal (Some (paragraphs lines)), σ).
Proof.
  intros Hlines. unfold run, projectSummaryLines, prop, mbind, Render_bind,
    mret, Render_ret. by rewrite Hlines.
Qed.

(** C6: the paragraphs of the summary section are the summary lines in
    source order: as many paragraphs as lines, the paragraph at index [i]
    keyed [i] and showing line [i]; the same sequence from any store. *)
Theorem summary_lines_in_source_order
  (p : Project.t) (lines : list (option string)) (σ : Store) :
  Project.summary p = Some lines →
  ∃ out ps,
    run (ProjectPreview {| project := Some p |}) σ = (Normal out, σ)
    ∧ run (projectSummaryLines (Some p)) σ = (Normal (Some ps), σ)
    ∧ (element_children <$> List.filter is_summary_section (content_slot out))
      = [[RArray ps]]
    ∧ length ps = length lines
    ∧ (∀ i, ps !! i
            = (λ line, RElement (Host "p") (Some i) [] [text_child line])
              <$> lines !! i)
    ∧ (∀ i line, lines !! i = Some (Some line) →
                 paragraph_text <$> ps !! i = Some (Some line))
    ∧ element_children <$> ps = (λ line, [text_child line]) <$> lines
    ∧ element_key <$> ps = Some <$> seq 0 (length lines).
Proof.
  intros Hlines. exists (project_card p), (paragraphs lines).
  split; [apply ProjectPreview_present|].
  split; [by apply projectSummaryLines_present|].
  split; [|split; [apply length_imap|split; [|split; [|split]]]].
  - rewrite content_slot_project_card, Hlines.
    cbn [List.filter optional_section]. rewrite is_summary_section_paragraphs.
    by destruct (Project.tags p).
  - intros i. unfold paragraphs. apply list_lookup_imap.
  - intros i line Hline. unfold paragraphs.
    by rewrite list_lookup_imap, Hline.
  - unfold paragraphs. rewrite fmap_imap. apply imap_const.
  - unfold paragraphs. rewrite fmap_imap.
    apply (imap_seq_0 lines (λ j, Some j)).
Qed.

Lemma summary_lines_in_source_order_abc :
  Project.summary
    {| Project.name := "Demo";
       Project.summary := Some [Some "a"; Some "b"; Some "c"];
       Project.cover := None; Project.tags := None;
       Project.startDate := "2023-01-01"; Project.endDate := None |}
  = Some [Some "a"; Some "b"; Some "c"]
  ∧ ∃ out ps,
      run (ProjectPreview
             {| project := Some
                  {| Project.name := "Demo";
                     Project.summary := Some [Some "a"; Some "b"; Some "c"];
                     Project.cover := None; Project.tags := None;
                     Project.startDate := "2023-01-01";
                     Project.endDate := None |} |}) ∅ = (Normal out, ∅)
      ∧ run (projectSummaryLines
               (Some {| Project.name := "Demo";
                        Project.summary := Some [Some "a"; Some "b"; Some "c"];
                        Project.cover := None; Project.tags := None;
                        Project.startDate := "2023-01-01";
                        Project.endDate := None |})) ∅ = (Normal (Some ps), ∅)
      ∧ (element_children
           <$> List.filter is_summary_section (content_slot out))
        = [[RArray ps]]
      ∧ length ps = 3
      ∧ (∀ i, ps !! i
              = (λ line, RElement (Host "p") (Some i) [] [text_child line])
                <$> [Some "a"; Some "b"; Some "c"] !! i)
      ∧ (∀ i line, [Some "a"; Some "b"; Some "c"] !! i = Some (Some line) →
                   paragraph_text <$> ps !! i = Some (Some line))
      ∧ element_children <$> ps = [[RText "a"]; [RText "b"]; [RText "c"]]
      ∧ element_key <$> ps = [Some 0; Some 1; Some 2].
Proof.
  split; [reflexivity|].
  apply (summary_lines_in_source_order _ [Some "a"; Some "b"; Some "c"] ∅).
  reflexivity.
Defined.

Example paragraphs_abc :
  paragraphs [Some "a"; Some "b"; Some "c"]
  = [RElement (Host "p") (Some 0) [] [RText "a"];
     RElement (Host "p") (Some 1) [] [RText "b"];
     RElement (Host "p") (Some 2) [] [RText "c"]].
Proof. reflexivity. Qed.

(** C10: the card has the media slot first and the content slot second;
    the media slot holds the cover when there is one and nothing else; the
    content slot holds, in this order, the title, the summary section when
    [summary] is present, the tags section when [tags] is present, and the
    date range last. *)
Theorem sections_in_fixed_order (p : Project.t) (σ : Store) :
  ∃ out,
    run (ProjectPreview {| project := Some p |}) σ = (Normal out, σ)
    ∧ is_element_of (Comp Card) out = true
    ∧ (is_element_of (Comp CardMedia) <$> element_children out) = [true; false]
    ∧ (is_element_of (Comp CardContent) <$> element_children out)
      = [false; true]
    ∧ rendered (media_slot out) = option_list (cover_image <$> Project.cover p)
    ∧ content_slot out
      = [title_section (Project.name p);
         optional_section summary_section (Project.summary p);
         optional_section tags_section (Project.tags p);
         dates_section (Project.startDate p) (Project.endDate p)]
    ∧ rendered (content_slot out)
      = ([title_section (Project.name p)]
         ++ option_list (summary_section <$> Project.summary p)
         ++ option_list (tags_section <$> Project.tags p)
         ++ [dates_section (Project.startDate p) (Project.endDate p)])%list.
Proof.
  exists (project_card p). split; [apply ProjectPreview_present|].
  rewrite content_slot_project_card, media_slot_project_card.
  destruct p as [name [lines|] [image|] [ts|] startDate endDate];
    repeat split.
Qed.

(** ** The closed enumeration of publishers *)

(** C7: the publisher of any publication is one of the fourteen members of
    the enum, and the string it stands for is one of their fourteen
    distinct values; no publication carries a string outside that list. *)
Theorem publisher_in_closed_enumeration (pub : Publication.t) :
  Publication.publisher pub ∈ Publisher_members
  ∧ length Publisher_members = 14
  ∧ Publisher_value <$> Publisher_members
    = ["AI Time Journal"; "CodeProject"; "DOU"; "Data Driven Investor";
       "GeeksForGeeks"; "Hacker News"; "HackerNoon"; "HowIGotJob"; "ITNEXT";
       "JavaScript in Plain English"; "KDnuggets"; "Newline"; "TechCrunch";
       "Towards Data Science"]
  ∧ NoDup (Publisher_value <$> Publisher_members)
  ∧ ∀ s, s ∉ Publisher_value <$> Publisher_members →
         Publisher_value (Publication.publisher pub) ≠ s.
Proof.
  assert (Publication.publisher pub ∈ Publisher_members) as Hmember.
  { destruct (Publication.publisher pub); unfold Publisher_members;
      set_solver. }
  split; [done|]. split; [done|]. split; [done|]. split.
  - apply (bool_decide_unpack _). by vm_compute.
  - intros s Hs <-. apply Hs. by apply list_elem_of_fmap_2.
Qed.

(** ** The profile registries *)

Example minimal_profile_position :
  Profile.position part_001.profile = Value "".
Proof. reflexivity. Qed.

(** C8, as stated, fails: the minimal profile sets [position] to the empty
    string instead of leaving it out (and both profiles set [tags] to the
    empty list). *)
Lemma minimal_profile_breaks_omission_contract :
  ¬ (∀ (socialLinks : list Link) (p : Profile.t),
       p ∈ profiles socialLinks → keeps_omission_contract p = true).
Proof.
  intros claim.
  assert (keeps_omission_contract part_001.profile = true) as Hkept.
  { apply (claim []). unfold profiles. set_solver. }
  discriminate Hkept.
Qed.

(** C8, amended: in both profiles [firstName], [summary] and [avatar] are
    populated; [lastName] and [location] are populated or left out;
    [socialLinks] is the shared list or left out; no field is [null];
    [position] and [tags] are always set, [tags] to the empty list in both
    and [position] to the empty string in the minimal profile. *)
Theorem registries_keep_practice (socialLinks : list Link) :
  Forall (keeps_registry_practice socialLinks) (profiles socialLinks)
  ∧ Forall (λ p, Profile.tags p = Value []) (profiles socialLinks)
  ∧ Profile.socialLinks (part_000.profile socialLinks) = Value socialLinks
  ∧ Profile.socialLinks part_001.profile = Omitted
  ∧ populated (Profile.position (part_000.profile socialLinks)) = true
  ∧ Profile.position part_001.profile = Value ""
  ∧ keeps_omission_contract part_001.profile = false.
Proof.
  assert (∀ p, p ∈ profiles socialLinks →
               ∀ lines, Profile.summary p = Value lines →
                        Forall (λ line, blank line = false) lines) as Hlines.
  { intros p Hp lines Hsummary. unfold profiles in Hp.
    apply elem_of_cons in Hp as [->|Hp];
      [|apply list_elem_of_singleton in Hp as ->].
    - injection Hsummary as <-. by repeat constructor.
    - injection Hsummary as <-. by repeat constructor. }
  split; [|by repeat split; repeat constructor].
  apply Forall_forall. intros p Hp. pose proof (Hlines p Hp) as Hp_lines.
  unfold profiles in Hp.
  apply elem_of_cons in Hp as [->|Hp];
    [|apply list_elem_of_singleton in Hp as ->].
  - unfold keeps_registry_practice. repeat split; try done. by right.
  - unfold keeps_registry_practice. repeat split; try done. by left.
Qed.

(** ** The greeting *)

(** C9: [Greeting] takes no entity; whatever the routes and the store, it
    returns the one fixed paragraph, which holds its text and nothing else:
    no [HyperLink], no [<span>], neither link element it built. *)
Theorem Greeting_is_constant (routes : Routes) (σ : Store) :
  run (Greeting routes) σ = (Normal greeting_paragraph, σ)
  ∧ count_type (Comp HyperLink) greeting_paragraph = 0
  ∧ count_type (Host "span") greeting_paragraph = 0
  ∧ (∃ text, element_children greeting_paragraph = [RText text]).
Proof.
  split; [reflexivity|]. split; [reflexivity|]. split; [reflexivity|].
  eexists. reflexivity.
Qed.

(** * Further properties of [ProjectPreview] *)

(** ** Counting host elements *)

Lemma count_types_keyed_paragraphs_p (k : nat → nat) (lines : list (option string)) :
  count_types (Host "p")
    (imap (λ index line,
       RElement (Host "p") (Some (k index)) [] [text_child line]) lines)
  = length lines.
Proof.
  revert k. induction lines as [|line lines IH]; intros k; [done|].
  pose proof (IH (k ∘ S)) as Htail.
  change (count_type (Host "p")
            (RElement (Host "p") (Some (k 0)) [] [text_child line])
          + count_types (Host "p")
              (imap (λ index line,
                 RElement (Host "p") (Some ((k ∘ S) index)) []
                   [text_child line]) lines) = S (length lines)).
  rewrite Htail. by destruct line.
Qed.

Lemma count_type_host_summary_section (tag : string) lines :
  count_type (Host tag) (summary_section lines)
  = (if decide (tag = "div") then 1 else 0)
    + (if decide (tag = "p") then length lines else 0).
Proof.
  unfold summary_section. rewrite count_type_element.
  cbn [count_types foldr]. rewrite count_type_array.
  destruct (decide (tag = "p")) as [->|Hp].
  - unfold paragraphs. by rewrite (count_types_keyed_paragraphs_p id).
  - rewrite count_types_paragraphs by congruence.
    destruct (decide (tag = "div")) as [->|Hdiv]; [done|].
    by rewrite decide_False by congruence.
Qed.

Lemma count_type_host_project_card (tag : string) (p : Project.t) :
  count_type (Host tag) (project_card p)
  = (if decide (tag = "div")
     then 1 + length (option_list (Project.summary p))
            + length (option_list (Project.tags p))
     else 0)
    + (if decide (tag = "p")
       then length (default [] (Project.summary p)) else 0).
Proof.
  destruct p as [name summary cover tags startDate endDate].
  unfold project_card. cbn [Project.name Project.summary Project.cover
    Project.tags Project.startDate Project.endDate].
  repeat (rewrite count_type_element; cbn [count_types foldr]).
  assert (count_type (Host tag) (optional_section summary_section summary)
          = (if decide (tag = "div") then length (option_list summary) else 0)
            + (if decide (tag = "p") then length (default [] summary) else 0))
    as ->.
  { destruct summary as [lines|]; cbn [optional_section].
    - apply count_type_host_summary_section.
    - by repeat case_decide. }
  destruct (decide (tag = "div")) as [->|Hdiv].
  - rewrite decide_False by done. destruct cover, tags, summary; reflexivity.
  - assert (∀ ts, count_type (Host tag) (tags_section ts) = 0) as Htags.
    { intros ts. unfold tags_section.
      repeat (rewrite count_type_element; cbn [count_types foldr]).
      by rewrite !decide_False by congruence. }
    assert (count_type (Host tag) (dates_section startDate endDate) = 0) as ->.
    { unfold dates_section.
      repeat (rewrite count_type_element; cbn [count_types foldr]).
      by rewrite !decide_False by congruence. }
    assert (count_type (Host tag) (optional_section tags_section tags) = 0)
      as ->.
    { destruct tags; [apply Htags | done]. }
    rewrite !decide_False by congruence.
    destruct cover; cbn; repeat case_decide; try congruence; lia.
Qed.

(** ** Nothing of a project is lost in its card *)

Lemma text_child_inj (a b : option string) : text_child a = text_child b → a = b.
Proof. destruct a, b; simpl; congruence. Qed.

Lemma keyed_paragraphs_inj (k : nat → nat) (l1 l2 : list (option string)) :
  imap (λ index line,
    RElement (Host "p") (Some (k index)) [] [text_child line]) l1
  = imap (λ index line,
    RElement (Host "p") (Some (k index)) [] [text_child line]) l2 →
  l1 = l2.
Proof.
  revert k l2. induction l1 as [|a l1 IH]; intros k [|b l2] Heq;
    try done.
  rewrite !imap_cons in Heq. injection Heq as Hhead Htail.
  apply text_child_inj in Hhead as ->.
  f_equal. by apply (IH (k ∘ S)).
Qed.

Lemma project_card_inj (p q : Project.t) :
  project_card p = project_card q → p = q.
Proof.
  destruct p as [n1 s1 c1 t1 sd1 ed1], q as [n2 s2 c2 t2 sd2 ed2].
  unfold project_card. cbn [Project.name Project.summary Project.cover
    Project.tags Project.startDate Project.endDate].
  unfold title_section, dates_section.
  intros Heq. injection Heq as Hcover Hname Hsummary Htags Hstart Hend.
  assert (s1 = s2) as ->.
  { destruct s1 as [l1|], s2 as [l2|]; try done.
    injection Hsummary as Hlines. f_equal.
    by apply (keyed_paragraphs_inj id). }
  assert (c1 = c2) as ->.
  { destruct c1, c2; try done. by injection Hcover as ->. }
  assert (t1 = t2) as ->.
  { destruct t1, t2; try done. by injection Htags as ->. }
  assert (ed1 = ed2) as ->.
  { destruct ed1, ed2; try done. by injection Hend as ->. }
  by subst.
Qed.

Lemma ProjectPreview_same_output (props1 props2 : ProjectPreviewProps) (σ : Store) :
  run (ProjectPreview props1) σ = run (ProjectPreview props2) σ →
  props1 = props2.
Proof.
  destruct props1 as [[p|]], props2 as [[q|]];
    rewrite ?ProjectPreview_present, ?ProjectPreview_absent; intros Heq.
  - assert (project_card p = project_card q) as Hcard by congruence.
    by apply project_card_inj in Hcard as ->.
  - discriminate Heq.
  - discriminate Heq.
  - done.
Qed.

(** X1: inputs that differ render differently.  An absent project and a
    present one, or two projects that differ in a field the component
    reads (the name, a summary line, the cover, the tags, a date), by its
    value or by its being present in one and absent in the other, never
    give the same output.  Absent covers [null], [undefined] and a missing
    key alike. *)
Theorem different_inputs_render_differently
  (props1 props2 : ProjectPreviewProps) (σ : Store) :
  props1 ≠ props2 →
  run (ProjectPreview props1) σ ≠ run (ProjectPreview props2) σ.
Proof.
  intros Hdiff Hsame. by apply Hdiff, (ProjectPreview_same_output _ _ σ).
Qed.

Lemma different_inputs_render_differently_tags :
  {| project := Some demo |} ≠ {| project := Some demo_with_empty_tags |}
  ∧ run (ProjectPreview {| project := Some demo |}) ∅
    ≠ run (ProjectPreview {| project := Some demo_with_empty_tags |}) ∅.
Proof.
  split; [discriminate|].
  apply (different_inputs_render_differently _ _ ∅). discriminate.
Defined.

(** ** Paragraph keys *)

(** X2: the key of a summary paragraph is its index in the summary, so
    every paragraph carries a key and no two paragraphs of a summary share
    one, even when two lines are equal. *)
Theorem summary_paragraph_keys_distinct
  (p : Project.t) (lines : list (option string)) (σ : Store) :
  Project.summary p = Some lines →
  ∃ ps,
    run (projectSummaryLines (Some p)) σ = (Normal (Some ps), σ)
    ∧ length ps = length lines
    ∧ (∀ i n, ps !! i = Some n → element_key n = Some i)
    ∧ (∀ i j n m, ps !! i = Some n → ps !! j = Some m → i ≠ j →
                  element_key n ≠ element_key m)
    ∧ NoDup (element_key <$> ps).
Proof.
  intros Hlines. exists (paragraphs lines).
  assert (∀ i n, paragraphs lines !! i = Some n → element_key n = Some i)
    as Hkey.
  { intros i n Hn. unfold paragraphs in Hn.
    apply list_lookup_imap_Some in Hn as (line & _ & ->). done. }
  split; [by apply projectSummaryLines_present|].
  split; [apply length_imap|]. split; [done|]. split.
  - intros i j n m Hn Hm Hij.
    rewrite (Hkey i n Hn), (Hkey j m Hm). congruence.
  - assert (element_key <$> paragraphs lines = Some <$> seq 0 (length lines))
      as ->.
    { unfold paragraphs. rewrite fmap_imap.
      apply (imap_seq_0 lines (λ j, Some j)). }
    apply (NoDup_fmap_2 _), NoDup_seq.
Qed.

Lemma summary_paragraph_keys_distinct_repeated :
  Project.summary
    {| Project.name := "Demo";
       Project.summary := Some [Some "Same."; Some "Same."; None; None];
       Project.cover := None; Project.tags := None;
       Project.startDate := "2023-01-01"; Project.endDate := None |}
  = Some [Some "Same."; Some "Same."; None; None]
  ∧ ∃ ps,
      run (projectSummaryLines
             (Some {| Project.name := "Demo";
                      Project.summary :=
                        Some [Some "Same."; Some "Same."; None; None];
                      Project.cover := None; Project.tags := None;
                      Project.startDate := "2023-01-01";
                      Project.endDate := None |})) ∅
      = (Normal (Some ps), ∅)
      ∧ length ps = 4
      ∧ (∀ i n, ps !! i = Some n → element_key n = Some i)
      ∧ (∀ i j n m, ps !! i = Some n → ps !! j = Some m → i ≠ j →
                    element_key n ≠ element_key m)
      ∧ NoDup (element_key <$> ps).
Proof.
  split; [reflexivity|].
  apply (summary_paragraph_keys_distinct _
           [Some "Same."; Some "Same."; None; None] ∅).
  reflexivity.
Defined.

(** ** The shape of the card *)

(** X3: the card holds one [<p>] per summary line, [null] lines and empty
    lines included, and none when [summary] is absent. *)
Theorem one_paragraph_per_summary_line (p : Project.t) (σ : Store) :
  ∃ out,
    run (ProjectPreview {| project := Some p |}) σ = (Normal out, σ)
    ∧ count_type (Host "p") out = length (default [] (Project.summary p)).
Proof.
  exists (project_card p). split; [apply ProjectPreview_present|].
  by rewrite count_type_host_project_card.
Qed.

(** X4: the card skeleton is always rendered: one [Card], one [CardMedia]
    and one [CardContent], whatever is absent.  Without a cover the media
    slot is still there, holding [null] and no [FluidImage]; with one the
    media slot holds exactly the [FluidImage] given that cover.  No
    [FluidImage] is in the content slot, which always has four children. *)
Theorem card_skeleton_always_rendered (p : Project.t) (σ : Store) :
  ∃ out,
    run (ProjectPreview {| project := Some p |}) σ = (Normal out, σ)
    ∧ count_type (Comp Card) out = 1
    ∧ count_type (Comp CardMedia) out = 1
    ∧ count_type (Comp CardContent) out = 1
    ∧ count_type (Comp FluidImage) out = length (option_list (Project.cover p))
    ∧ media_slot out
      = [match Project.cover p with
         | Some image =>
             RElement (Comp FluidImage) None [("image", PImage image)] []
         | None => RNull
         end]
    ∧ count_types (Comp FluidImage) (media_slot out)
      = length (option_list (Project.cover p))
    ∧ count_types (Comp FluidImage) (content_slot out) = 0
    ∧ (Project.cover p = None ↔ media_slot out = [RNull])
    ∧ length (content_slot out) = 4.
Proof.
  exists (project_card p). split; [apply ProjectPreview_present|].
  rewrite !count_type_project_card, media_slot_project_card.
  assert (count_types (Comp FluidImage) (content_slot (project_card p)) = 0)
    as Hcontent.
  { rewrite content_slot_project_card. cbn [count_types foldr].
    assert (count_type (Comp FluidImage)
              (optional_section summary_section (Project.summary p)) = 0)
      as ->.
    { destruct (Project.summary p); [|done].
      by apply count_type_summary_section. }
    by destruct (Project.tags p). }
  rewrite Hcontent, content_slot_project_card.
  repeat split; try done.
  all: destruct (Project.cover p); done.
Qed.

(** X5: a card holds no element of any type but [Card], [CardMedia],
    [CardContent], [CardTitle], [DateRange], [Tags], [FluidImage], [<div>]
    and [<p>]; in particular never a [HyperLink]. *)
Theorem only_card_element_types (p : Project.t) (σ : Store) :
  ∃ out,
    run (ProjectPreview {| project := Some p |}) σ = (Normal out, σ)
    ∧ ∀ t, 0 < count_type t out →
           t ∈ [Comp Card; Comp CardMedia; Comp CardContent; Comp CardTitle;
                Comp DateRange; Comp Tags; Comp FluidImage;
                Host "div"; Host "p"].
Proof.
  exists (project_card p). split; [apply ProjectPreview_present|].
  intros [tag|c].
  - rewrite count_type_host_project_card. intros Hcount.
    destruct (decide (tag = "div")) as [->|Hdiv]; [set_solver|].
    destruct (decide (tag = "p")) as [->|Hp]; [set_solver|]. lia.
  - rewrite count_type_project_card. intros Hcount.
    destruct c; try set_solver. simpl in Hcount. lia.
Qed.

(** X6: the card holds one [<div>] for the date range, one more when
    [summary] is present and one more when [tags] is present, and no
    other. *)
Theorem one_div_per_rendered_section (p : Project.t) (σ : Store) :
  ∃ out,
    run (ProjectPreview {| project := Some p |}) σ = (Normal out, σ)
    ∧ count_type (Host "div") out
      = 1 + length (option_list (Project.summary p))
          + length (option_list (Project.tags p)).
Proof.
  exists (project_card p). split; [apply ProjectPreview_present|].
  rewrite count_type_host_project_card. simpl. lia.
Qed.
